(** * xpra-html5 [setup.py]: a shallow embedding and its checked properties

    The build script installs the HTML5 client: it records and reloads
    version-control metadata ([get_vcs_info], [record_vcs_info],
    [load_vcs_info]), replaces bundled libraries with symbolic links to the
    system copies ([install_symlink]) and copies, rewrites, minifies and
    compresses every asset ([install_html5]).

    Conventions of the embedding:
    - a Python [str] is a [string] of 8-bit characters (code points below
      256; file contents are decoded as latin1 by the script itself, and
      the output of the version-control commands is taken as already
      decoded text);
    - the file system is a finite map from path spellings to files and
      symbolic links; directories are not tracked, and two different
      spellings are two different files;
    - external programs are oracles of the environment: their exit code and
      the bytes they write are arbitrary, the path they write to is the one
      their command line names;
    - exceptions are values: a computation returns [Ok] or [Raise], and the
      state reached when the exception was raised is kept. *)

From Stdlib Require Import ZArith Ascii DecimalString.
From stdpp Require Import gmap strings list.

Local Open Scope Z_scope.

(** ** Python string primitives *)

Module Py.

Definition LF : ascii := "010"%char.
Definition CR : ascii := "013"%char.

Definition chr_in (chars : string) (c : ascii) : bool :=
  existsb (Ascii.eqb c) (String.list_ascii_of_string chars).

(** [str.splitlines] boundaries among the code points below 256:
    \n \v \f \r \x1c \x1d \x1e \x85. *)
Definition is_linebreak (c : ascii) : bool :=
  match nat_of_ascii c with
  | 10 | 11 | 12 | 13 | 28 | 29 | 30 | 133 => true
  | _ => false
  end%nat.

(** [str.isspace] among the code points below 256; this is also the class
    [\s] of [re] on [str] patterns. *)
Definition is_space (c : ascii) : bool :=
  match nat_of_ascii c with
  | 9 | 10 | 11 | 12 | 13 | 28 | 29 | 30 | 31 | 32 | 133 | 160 => true
  | _ => false
  end%nat.

Definition is_digit (c : ascii) : bool :=
  let n := nat_of_ascii c in (48 <=? n)%nat && (n <=? 57)%nat.

Definition startswith (s p : string) : bool := String.prefix p s.

Fixpoint endswith (s p : string) : bool :=
  String.eqb s p ||
  match s with
  | EmptyString => false
  | String _ s' => endswith s' p
  end.

(** [s.find(sub)]: the lowest index where [sub] occurs, or -1. *)
Fixpoint find (s sub : string) : Z :=
  if String.prefix sub s then 0
  else match s with
       | EmptyString => -1
       | String _ s' => let r := find s' sub in if r <? 0 then -1 else r + 1
       end.

(** [s.rfind(sub)]: the highest index where [sub] occurs, or -1. *)
Fixpoint rfind (s sub : string) : Z :=
  match s with
  | EmptyString => if String.prefix sub s then 0 else -1
  | String _ s' =>
      let r := rfind s' sub in
      if 0 <=? r then r + 1
      else if String.prefix sub s then 0 else -1
  end.

(** [s.split(sep)] for the one-character separators the script uses. *)
Fixpoint split (sep : ascii) (s : string) : list string :=
  match s with
  | EmptyString => [EmptyString]
  | String c s' =>
      if Ascii.eqb c sep then EmptyString :: split sep s'
      else match split sep s' with
           | l :: ls => String c l :: ls
           | [] => [String c EmptyString]
           end
  end.

(** [sep.join(parts)] *)
Fixpoint join (sep : string) (parts : list string) : string :=
  match parts with
  | [] => EmptyString
  | [p] => p
  | p :: ps => p +:+ sep +:+ join sep ps
  end.

Definition starts_with_chr (c : ascii) (s : string) : bool :=
  match s with
  | String d _ => Ascii.eqb d c
  | EmptyString => false
  end.

(** [s.splitlines()]: a \r\n pair is one boundary, and a final boundary
    does not open an empty last line. *)
Fixpoint splitlines (s : string) : list string :=
  match s with
  | EmptyString => []
  | String c s' =>
      if is_linebreak c then
        if Ascii.eqb c CR && starts_with_chr LF s' then splitlines s'
        else EmptyString :: splitlines s'
      else match splitlines s' with
           | [] => [String c EmptyString]
           | l :: ls => String c l :: ls
           end
  end.

Fixpoint lstrip_by (P : ascii -> bool) (s : string) : string :=
  match s with
  | EmptyString => EmptyString
  | String c s' => if P c then lstrip_by P s' else s
  end.

Fixpoint rstrip_by (P : ascii -> bool) (s : string) : string :=
  match s with
  | EmptyString => EmptyString
  | String c s' =>
      match rstrip_by P s' with
      | EmptyString => if P c then EmptyString else String c EmptyString
      | r => String c r
      end
  end.

(** [s.strip(chars)], [s.lstrip(chars)] and [s.strip()] *)
Definition strip_chars (chars s : string) : string :=
  rstrip_by (chr_in chars) (lstrip_by (chr_in chars) s).
Definition lstrip_chars (chars s : string) : string :=
  lstrip_by (chr_in chars) s.
Definition strip (s : string) : string :=
  rstrip_by is_space (lstrip_by is_space s).

(** [s.replace(old, new)] for a non-empty [old]: the occurrences are found
    from the left and do not overlap; [skip] counts the characters of the
    occurrence just replaced that are still to be dropped. *)
Fixpoint replace_from (old new : string) (skip : nat) (s : string) : string :=
  match s with
  | EmptyString => EmptyString
  | String c s' =>
      match skip with
      | S k => replace_from old new k s'
      | O =>
          if String.prefix old s
          then new +:+ replace_from old new (Nat.pred (String.length old)) s'
          else String c (replace_from old new O s')
      end
  end.

Definition replace (s old new : string) : string := replace_from old new O s.

(** [int(s)] on a string: surrounding white space, an optional sign, then
    decimal digits, where single underscores may separate digits. [None]
    stands for [ValueError]. *)
Fixpoint parse_digits (acc : Z) (after_digit : bool) (s : string) : option Z :=
  match s with
  | EmptyString => if after_digit then Some acc else None
  | String c s' =>
      if is_digit c
      then parse_digits (10 * acc + (Z.of_nat (nat_of_ascii c) - 48)) true s'
      else if Ascii.eqb c "_"%char && after_digit
           then match s' with
                | EmptyString => None
                | String d _ => if is_digit d then parse_digits acc false s' else None
                end
           else None
  end.

Definition int_of_str (s : string) : option Z :=
  match strip s with
  | String "-"%char body => Z.opp <$> parse_digits 0 false body
  | String "+"%char body => parse_digits 0 false body
  | body => parse_digits 0 false body
  end.


End Py.

(** ** Values, dictionaries, exceptions *)

(** The values the script keeps in variables that change type: [None], an
    [int] or a [str]. *)
Inductive pyval : Type :=
  | VNone
  | VInt (n : Z)
  | VStr (s : string).

Definition truthy (v : pyval) : bool :=
  match v with
  | VNone => false
  | VInt n => negb (n =? 0)
  | VStr s => negb (String.eqb s "")
  end.


(** A [dict] with string keys: insertion-ordered, one entry per key.  The
    order is what [items()] iterates in, so it decides the order of the
    lines [record_vcs_info] writes. *)
Definition dict (V : Type) : Type := list (string * V).

Fixpoint dict_get {V} (k : string) (d : dict V) : option V :=
  match d with
  | [] => None
  | (k', v) :: d' => if String.eqb k' k then Some v else dict_get k d'
  end.

Fixpoint dict_set {V} (k : string) (v : V) (d : dict V) : dict V :=
  match d with
  | [] => [(k, v)]
  | (k', v') :: d' =>
      if String.eqb k' k then (k, v) :: d' else (k', v') :: dict_set k v d'
  end.


Inductive exn : Type :=
  | AttributeError
  | IndexError
  | TypeError
  | AssertionError
  | OSError
  | FileNotFoundError
  | FileExistsError.

Inductive res (A : Type) : Type :=
  | Ok (a : A)
  | Raise (e : exn).
Arguments Ok {A} a.
Arguments Raise {A} e.

(** ** The file system, the console and the environment *)

Inductive node : Type :=
  | File (content : string)
  | Symlink (target : string).

Module FS.

Definition lexists (fs : gmap string node) (p : string) : bool :=
  match fs !! p with
  | Some _ => true
  | None => false
  end.

(** Following symbolic links, at most 40 of them as the kernel does. *)
Fixpoint resolve_fuel (n : nat) (fs : gmap string node) (p : string) : option string :=
  match fs !! p with
  | Some (File _) => Some p
  | Some (Symlink t) =>
      match n with
      | O => None
      | S n' => resolve_fuel n' fs t
      end
  | None => None
  end.

Definition resolve (fs : gmap string node) (p : string) : option string :=
  resolve_fuel 40 fs p.

(** [os.path.exists]: false for a missing path and for a broken link. *)
Definition path_exists (fs : gmap string node) (p : string) : bool :=
  match resolve fs p with
  | Some _ => true
  | None => false
  end.

Definition read (fs : gmap string node) (p : string) : option string :=
  match resolve fs p with
  | Some q => match fs !! q with
              | Some (File c) => Some c
              | _ => None
              end
  | None => None
  end.

(** Where a write through [p] lands: on [p] itself when nothing is there,
    on the end of the chain of links otherwise; [None] for a chain longer
    than the limit. *)
Fixpoint write_target_fuel (n : nat) (fs : gmap string node) (p : string) : option string :=
  match fs !! p with
  | Some (Symlink t) =>
      match n with
      | O => None
      | S n' => write_target_fuel n' fs t
      end
  | _ => Some p
  end.

Definition write_target (fs : gmap string node) (p : string) : option string :=
  write_target_fuel 40 fs p.

End FS.

(** The result of a child process: exit status and captured output. *)
Record proc : Type := Proc {
  returncode : Z;
  stdout : string;
  stderr : string
}.

(** What the script prints, one constructor per [print] call. *)
Inductive msg : Type :=
  | MErrorRunning (cmd : list string)          (* error running %s,%s: %s *)
  | MSymlinked (dst src : string)              (* symlinked %s from %s *)
  | MNoBranch                                  (* Warning: could not get branch information *)
  | MErrorReturned (cmd : string) (code : Z)   (* Error: %s returned %s *)
  | MInvalidRevision (rev : pyval)             (* invalid revision number %r *)
  | MMinifying (install_dir minifier : string) (* minifying html5 client to '%s' using %s *)
  | MCopying (install_dir : string)            (* copying html5 client to '%s' *)
  | MBrotliCmd (cmd : option string)           (* brotli_cmd=%s *)
  | MBrotliVersion (v : string)                (*  version %s *)
  | MAddingVcs (bname : string)                (* adding vcs info to %s *)
  | MMinifyFailed (bname : string) (cmd : list string) (r : Z)
                                               (* Error: failed to minify '%s', ... *)
  | MMinified (fname : string)                 (* minified %s *)
  | MCopied (fname : string)                   (* copied %s *)
  | MBrotliError (code : Z) (cmd : list string)(* brotli error code=%i on %s *)
  | MStdout (s : string)                       (* stdout=%s *)
  | MStderr (s : string)                       (* stderr=%s *)
  | MBrotliNotCreated (br_dst : string)        (* Warning: brotli did not create '%s' *)
  | MBackgroundPaths (paths : list string).    (* desktop background paths: %s *)

Record env : Type := Env {
  (** [Popen(cmd, shell=True)] for the version-control queries *)
  sh : string -> proc;
  (** [Popen(argv)] for the tools: [None] when the program cannot be
      started, else its result and the bytes it writes to its output
      path, if it writes them *)
  exec : list string -> gmap string node -> option (proc * option string);
  (** the matches of a pattern with glob metacharacters, in the order
      [glob.glob] lists them *)
  glob_magic : gmap string node -> string -> list string;
  (** [os.walk(srcdir)]: each directory with the files in it *)
  os_walk : string -> list (string * list string);
  getcwd : string;
  environ : dict string;
  (** [yuicompressor.get_jar_filename()], [None] when the import fails *)
  yuicompressor_jar : option string
}.

(** What a run leaves behind besides the files: the lines printed and the
    programs started, in order, each with what it answered. *)
Inductive event : Type :=
  | EPrint (m : msg)
  | ERun (cmd : list string) (answer : option (proc * option string)).

(** ** The monad: file system state, exceptions, and the trace written *)

Definition M (A : Type) : Type :=
  gmap string node -> res A * gmap string node * list event.

Definition ret {A} (a : A) : M A := fun f => (Ok a, f, []).
Definition raise {A} (e : exn) : M A := fun f => (Raise e, f, []).
Definition bind {A B} (c : M A) (k : A -> M B) : M B :=
  fun f => match c f with
           | (Ok a, f1, t1) => let '(r, f2, t2) := k a f1 in (r, f2, t1 ++ t2)
           | (Raise e, f1, t1) => (Raise e, f1, t1)
           end.

Notation "'let*' x ':=' c 'in' k" := (bind c (fun x => k))
  (at level 10, x name, c at level 100, k at level 200).
Notation "'let*' ' pat ':=' c 'in' k" :=
  (bind c (fun x => match x with pat => k end))
  (at level 10, pat pattern, c at level 100, k at level 200).
Notation "c ';>' k" := (bind c (fun _ => k))
  (at level 100, k at level 200, right associativity).

Definition get_fs : M (gmap string node) := fun f => (Ok f, f, []).
Definition put_fs (f : gmap string node) : M unit := fun _ => (Ok tt, f, []).
Definition print (m : msg) : M unit := fun f => (Ok tt, f, [EPrint m]).
Definition log_run (cmd : list string) (answer : option (proc * option string))
  : M unit := fun f => (Ok tt, f, [ERun cmd answer]).
Definition when (b : bool) (c : M unit) : M unit := if b then c else ret tt.

Module Os.

Definition path_exists (p : string) : M bool :=
  let* f := get_fs in ret (FS.path_exists f p).

(** [os.unlink]: removes the entry itself, link or file. *)
Definition unlink (p : string) : M unit :=
  let* f := get_fs in
  if FS.lexists f p then put_fs (delete p f) else raise FileNotFoundError.

(** [os.symlink(src, dst)]: refuses a [dst] that is there, broken link
    included. *)
Definition symlink (src dst : string) : M unit :=
  let* f := get_fs in
  if FS.lexists f dst then raise FileExistsError
  else put_fs (<[dst := Symlink src]> f).

(** [os.chmod]: the mode is not tracked, the path must exist. *)
Definition chmod (p : string) : M unit :=
  let* f := get_fs in
  if FS.path_exists f p then ret tt else raise FileNotFoundError.

(** [open(p).read()] *)
Definition read_file (p : string) : M string :=
  let* f := get_fs in
  match FS.read f p with
  | Some c => ret c
  | None => raise FileNotFoundError
  end.

(** [open(p, "w").write(data)] *)
Definition write_file (p data : string) : M unit :=
  let* f := get_fs in
  match FS.write_target f p with
  | Some q => put_fs (<[q := File data]> f)
  | None => raise OSError
  end.

(** [shutil.copyfile(src, dst)] *)
Definition copyfile (src dst : string) : M unit :=
  let* data := read_file src in write_file dst data.

(** [os.makedirs]: directories are not tracked. *)
Definition makedirs (p : string) : M unit := ret tt.

End Os.

(** ** [posixpath] *)

Module Path.

Definition sep : ascii := "/"%char.

Fixpoint drop (n : nat) (s : string) : string :=
  match n, s with
  | S k, String _ s' => drop k s'
  | _, _ => s
  end.

Fixpoint take (n : nat) (s : string) : string :=
  match n, s with
  | S k, String c s' => String c (take k s')
  | _, _ => EmptyString
  end.

Definition join (a b : string) : string :=
  if Py.startswith b "/" then b
  else if String.eqb a "" || Py.endswith a "/" then a +:+ b
  else a +:+ "/" +:+ b.

(** [os.path.join] of a list of components: at least one is needed. *)
Definition join_all (parts : list string) : option string :=
  match parts with
  | [] => None
  | a :: ps => Some (fold_left join ps a)
  end.

Definition basename (p : string) : string :=
  drop (Z.to_nat (Py.rfind p "/" + 1)) p.

(** [os.path.split(p)[0]] *)
Definition dirname (p : string) : string :=
  let head := take (Z.to_nat (Py.rfind p "/" + 1)) p in
  if String.eqb (Py.lstrip_by (Ascii.eqb sep) head) "" then head
  else Py.rstrip_by (Ascii.eqb sep) head.

(** [os.path.splitext(p)[1]]: the last dot of the last component, unless
    only dots come before it there. *)
Fixpoint only_dots (s : string) (n : nat) : bool :=
  match n, s with
  | S k, String c s' => Ascii.eqb c "."%char && only_dots s' k
  | _, _ => true
  end.

Definition splitext_ext (p : string) : string :=
  let sepIndex := Py.rfind p "/" in
  let dotIndex := Py.rfind p "." in
  if sepIndex <? dotIndex then
    let filenameIndex := Z.to_nat (sepIndex + 1) in
    if only_dots (drop filenameIndex p) (Z.to_nat dotIndex - filenameIndex)
    then EmptyString
    else drop (Z.to_nat dotIndex) p
  else EmptyString.

End Path.

(** ** The fragment of [re] the script uses

    Patterns are an optional [^] followed by atoms (a literal character,
    an escaped character, or the class [\s]), each with an optional [*] or
    [+].  Matching is greedy with backtracking, as in [re]. *)

Module Re.

Inductive cls : Type :=
  | CChr (c : ascii)
  | CSpace.

Inductive quant : Type := One | Star | Plus.

Record regex : Type := Regex {
  anchored : bool;
  atoms : list (cls * quant)
}.

Definition in_cls (k : cls) (c : ascii) : bool :=
  match k with
  | CChr d => Ascii.eqb c d
  | CSpace => Py.is_space c
  end.

(** [re.compile] *)
Fixpoint parse_atoms (s : string) : option (list (cls * quant)) :=
  match s with
  | EmptyString => Some []
  | String c s1 =>
      let atom :=
        if Ascii.eqb c "\"%char then
          match s1 with
          | String "s"%char s2 => Some (CSpace, s2)
          | String "("%char s2 => Some (CChr "("%char, s2)
          | _ => None
          end
        else if Py.chr_in "^$.*+?()[]{}|" c then None
        else Some (CChr c, s1) in
      match atom with
      | None => None
      | Some (k, s2) =>
          (* the recursive calls are on [s1], which [s2] is or is the tail of *)
          match s1 with
          | EmptyString => Some [(k, One)]
          | String d s3 =>
              if Ascii.eqb c "\"%char then
                match s3 with
                | String "*"%char s4 => cons (k, Star) <$> parse_atoms s4
                | String "+"%char s4 => cons (k, Plus) <$> parse_atoms s4
                | _ => cons (k, One) <$> parse_atoms s3
                end
              else if Ascii.eqb d "*"%char then cons (k, Star) <$> parse_atoms s3
              else if Ascii.eqb d "+"%char then cons (k, Plus) <$> parse_atoms s3
              else cons (k, One) <$> parse_atoms s1
          end
      end
  end.

Definition compile (pattern : string) : option regex :=
  match pattern with
  | String "^"%char s => Regex true <$> parse_atoms s
  | _ => Regex false <$> parse_atoms pattern
  end.

(** A match of the atoms at the start of [s]: what is left of [s]. *)
Fixpoint match_atoms (l : list (cls * quant)) : string -> option string :=
  match l with
  | [] => fun s => Some s
  | (k, q) :: rest =>
      let next := match_atoms rest in
      let star :=
        fix star (s : string) : option string :=
          match s with
          | String c s' =>
              if in_cls k c
              then match star s' with
                   | Some r => Some r
                   | None => next s
                   end
              else next s
          | EmptyString => next s
          end in
      match q with
      | One => fun s => match s with
                        | String c s' => if in_cls k c then next s' else None
                        | EmptyString => None
                        end
      | Star => star
      | Plus => fun s => match s with
                         | String c s' => if in_cls k c then star s' else None
                         | EmptyString => None
                         end
      end
  end.

(** [p.sub(repl, s)] for a pattern that matches no empty string and a
    replacement without escapes: every match, from the left, without
    overlap; [^] matches at the start of [s] only. *)
Fixpoint sub_from (p : regex) (repl : string) (at_start : bool) (skip : nat)
    (s : string) : string :=
  match s with
  | EmptyString => EmptyString
  | String c s' =>
      match skip with
      | S k => sub_from p repl false k s'
      | O =>
          match (if negb (anchored p) || at_start
                 then match_atoms (atoms p) s else None) with
          | Some r =>
              match (String.length s - String.length r)%nat with
              | O => String c (sub_from p repl false O s')
              | S k => repl +:+ sub_from p repl false k s'
              end
          | None => String c (sub_from p repl false O s')
          end
      end
  end.

Definition sub (p : regex) (repl s : string) : string := sub_from p repl true O s.

End Re.

Definition dquote : string := String "034"%char EmptyString.
Definition newline : string := String Py.LF EmptyString.

(** Leaving the body of a [for] loop: on to the next item, or out of the
    loop. *)
Inductive ctl : Type := Next | Break.

(** ** The script *)

Section Script.

Variable E : env.

(** *** [glob_recurse] *)

Definition glob_recurse (srcdir : string) : dict (list string) :=
  fold_left
    (fun m '(root, files) =>
       fold_left
         (fun m f =>
            let dirname := Path.drop (String.length srcdir + 1) root in
            let filename := Path.join root f in
            dict_set dirname (default [] (dict_get dirname m) ++ [filename]) m)
         files m)
    (os_walk E srcdir) [].

(** *** [get_status_output]

    [output] is the path the command line [cmd] names as its output; what
    the program writes there is the oracle's. *)
Definition get_status_output (cmd : list string) (output : string)
  : M (Z * string * string) :=
  let* f := get_fs in
  log_run cmd (exec E cmd f) ;>
  match exec E cmd f with
  | None => print (MErrorRunning cmd) ;> ret (-1, EmptyString, EmptyString)
  | Some (p, written) =>
      match written with
      | Some bytes => put_fs (<[output := File bytes]> f)
      | None => ret tt
      end ;>
      ret (returncode p, stdout p, stderr p)
  end.

(** *** [install_symlink] *)

(** [glob.has_magic] *)
Definition has_magic (pattern : string) : bool :=
  existsb (Py.chr_in "*?[") (String.list_ascii_of_string pattern).

(** [glob.glob]: a pattern without metacharacters is looked up as it is. *)
Definition glob (pattern : string) : M (list string) :=
  let* f := get_fs in
  ret (if has_magic pattern then glob_magic E f pattern
       else if FS.lexists f pattern then [pattern] else []).

(** The test [if symlink_option.find("*"):] of the source: the truth value
    of the index that [find] returns. *)
Definition find_star_test (symlink_option : string) : bool :=
  truthy (VInt (Py.find symlink_option "*")).

Fixpoint install_symlink (symlink_options : list string) (dst : string) : M bool :=
  match symlink_options with
  | [] => ret false
  | symlink_option :: rest =>
      let* resolved :=
        (if find_star_test symlink_option then
           let* matches := glob symlink_option in
           match matches with
           | m :: _ => ret (Some m)
           | [] => ret None
           end
         else ret (Some symlink_option)) in
      match resolved with
      | None => install_symlink rest dst
      | Some symlink_option =>
          let* found := Os.path_exists symlink_option in
          if found then
            print (MSymlinked dst symlink_option) ;>
            let* there := Os.path_exists dst in
            when there (Os.unlink dst) ;>
            Os.symlink symlink_option dst ;>
            ret true
          else install_symlink rest dst
      end
  end.

(** *** [get_vcs_info] *)

Definition branch_cmds : list string :=
  [ "git branch --show-current";
    "git branch --remote --verbose --no-abbrev --contains | sed -rne 's/^[^\/]*\/([^\ ]+).*$/\1/p'";
    "git branch | grep '* '" ].

(** The loop over the three commands, left at the first one that exits
    with 0 and prints at least one line. *)
Fixpoint find_branch (cmds : list string) : pyval :=
  match cmds with
  | [] => VNone
  | cmd :: rest =>
      let p := sh E cmd in
      if returncode p =? 0 then
        match Py.splitlines (stdout p) with
        | b :: _ => VStr b
        | [] => find_branch rest
        end
      else find_branch rest
  end.

Definition get_output_line (cmd : string) : M pyval :=
  let p := sh E cmd in
  if negb (returncode p =? 0) then
    print (MErrorReturned cmd (returncode p)) ;> ret VNone
  else
    match Py.splitlines (stdout p) with
    | v :: _ => ret (VStr v)
    | [] => raise IndexError
    end.

(** [int(rev)]; [None] for any exception it raises. *)
Definition int_of (v : pyval) : option Z :=
  match v with
  | VNone => None
  | VInt n => Some n
  | VStr s => Py.int_of_str s
  end.

Definition is_change (line : string) : bool :=
  let sline := Py.strip line in
  Py.startswith sline "modified: " || Py.startswith sline "new file:"
  || Py.startswith sline "deleted:".

Definition count_changes (lines : list string) : Z :=
  fold_left (fun changes line => if is_change line then changes + 1 else changes)
    lines 0.

Definition pyval_eqb_str (v : pyval) (s : string) : bool :=
  match v with
  | VStr t => String.eqb t s
  | _ => false
  end.

(** The revision that the line of [git describe] gives:
    ie: parts = ["v4.0.6", "85", "gf253d3f9d"] *)
Definition describe_rev (d : string) : pyval :=
  let parts := Py.split "-" d in
  let rev := VInt 0 in
  match parts with
  | [_; p1; _] => VStr p1
  | _ => rev
  end.

(** The count of the lines of [git status] that name a change. *)
Definition status_changes : Z :=
  let p := sh E "git status" in
  let changes := 0 in
  if returncode p =? 0 then count_changes (Py.splitlines (stdout p))
  else changes.

Definition get_vcs_info : M (dict pyval) :=
  let info : dict pyval := [] in
  let branch := find_branch branch_cmds in
  let* info :=
    (if negb (truthy branch) then print MNoBranch ;> ret info
     else ret (dict_set "BRANCH" branch info)) in
  let* described := get_output_line "git describe --always --tags" in
  match described with
  | VStr d =>
      let rev := describe_rev d in
      let* rev :=
        (if pyval_eqb_str branch "master"
         then get_output_line "git rev-list --count HEAD --first-parent"
         else ret rev) in
      let* info :=
        (if truthy rev then
           match int_of rev with
           | None => print (MInvalidRevision rev) ;> ret info
           | Some n => ret (dict_set "REVISION" (VInt n) info)
           end
         else ret info) in
      let changes := status_changes in
      ret (if truthy (VInt changes)
           then dict_set "LOCAL_MODIFICATIONS" (VInt changes) info
           else info)
  | _ =>
      (* [None.split] *)
      raise AttributeError
  end.

(** *** [record_vcs_info] and [load_vcs_info] *)



(** Reading in text mode: \r and \r\n arrive as \n. *)
Fixpoint universal_newlines (after_cr : bool) (s : string) : string :=
  match s with
  | EmptyString => EmptyString
  | String c s' =>
      if Ascii.eqb c Py.CR then String Py.LF (universal_newlines true s')
      else if Ascii.eqb c Py.LF then
        if after_cr then universal_newlines false s'
        else String Py.LF (universal_newlines false s')
      else String c (universal_newlines false s')
  end.

(** [for line in f]: the lines with their ends. *)
Fixpoint readlines (s : string) : list string :=
  match s with
  | EmptyString => []
  | String c s' =>
      if Ascii.eqb c Py.LF then String c EmptyString :: readlines s'
      else match readlines s' with
           | [] => [String c EmptyString]
           | l :: ls => String c l :: ls
           end
  end.

Definition load_line (info : dict string) (line : string) : dict string :=
  if Py.startswith line "#" then info
  else match Py.split "="%char (Py.strip_chars (String Py.LF (String Py.CR EmptyString)) line) with
       | [k; v] => dict_set k v info
       | _ => info
       end.

Definition load_vcs_info : M (dict string) :=
  let* there := Os.path_exists "./vcs-info" in
  if there then
    let* text := Os.read_file "./vcs-info" in
    ret (fold_left load_line (readlines (universal_newlines false text)) [])
  else ret [].

(** *** [install_html5] *)

Definition not_empty (s : string) : bool := negb (String.eqb s EmptyString).

(** [minifier not in ("", None, "copy")] *)
Definition wants_minifier (minifier : option string) : bool :=
  match minifier with
  | None => false
  | Some m => negb (String.eqb m EmptyString || String.eqb m "copy")
  end.

(** The search of brotli on [$PATH]: the command and its version. *)
Fixpoint find_brotli (paths : list string) : M (option string * option string) :=
  match paths with
  | [] => ret (None, None)
  | x :: rest =>
      let br := Path.join x "brotli" in
      let* there := Os.path_exists br in
      if there then
        let* f := get_fs in
        log_run [br; "--version"] (exec E [br; "--version"] f) ;>
        match exec E [br; "--version"] f with
        | None => raise OSError
        | Some (p, _) =>
            ret (Some br,
                 if returncode p =? 0
                 then Some (Py.strip_chars (String Py.LF (String Py.CR EmptyString)) (stdout p))
                 else None)
        end
      else find_brotli rest
  end.

(** those are used to replace the file we ship in source form
    with one that is maintained by the distribution *)
Definition symlinks : dict (list string) :=
  [ ("jquery.js",
     [ "/usr/share/javascript/jquery/jquery.js";
       "/usr/share/javascript/jquery/latest/jquery.js";
       "/usr/share/javascript/jquery/3/jquery.js" ]);
    ("jquery-ui.js",
     [ "/usr/share/javascript/jquery-ui/jquery-ui.js";
       "/usr/share/javascript/jquery-ui/latest/jquery-ui.js";
       "/usr/share/javascript/jquery-ui/3/jquery-ui.js" ]) ].

(** The version stamping of [Utilities.js]. *)
Definition stamp_vcs (info : dict string) (data : string) : string :=
  let REVISION := default EmptyString (dict_get "REVISION" info) in
  let data :=
    if not_empty REVISION
    then Py.replace data "REVISION : 0," ("REVISION : " +:+ REVISION +:+ ",")
    else data in
  let LOCAL_MODIFICATIONS := default EmptyString (dict_get "LOCAL_MODIFICATIONS" info) in
  let data :=
    if not_empty LOCAL_MODIFICATIONS
    then Py.replace data "LOCAL_MODIFICATIONS : 0,"
           ("LOCAL_MODIFICATIONS : " +:+ LOCAL_MODIFICATIONS +:+ ",")
    else data in
  let BRANCH := default EmptyString (dict_get "BRANCH" info) in
  if not_empty BRANCH
  then Py.replace data ("BRANCH : " +:+ dquote +:+ "master" +:+ dquote +:+ ",")
         ("BRANCH : " +:+ dquote +:+ BRANCH +:+ dquote +:+ ",")
  else data.

Definition downlevel_rules : list (string * string) :=
  [ ("^\s*for\s*\(\s*let\s+",   "for(var ");
    ("^\s*let\s+",              "var ");
    ("^\s*for\s*\(\s*const\s+", "for(var ");
    ("^\s*const\s+",            "var ") ].

(** One pass of the loop over the rules: every line through [p.sub], the
    lines joined again.  None of the four patterns fails to compile. *)
Definition downlevel_pass (data : string) (rule : string * string) : string :=
  match Re.compile (fst rule) with
  | Some p => Py.join newline (map (Re.sub p (snd rule)) (Py.splitlines data))
  | None => data
  end.

Definition downlevel (data : string) : string :=
  fold_left downlevel_pass downlevel_rules data.

(** The rewriting of a script or of [index.html]: the data to install. *)
Definition transform (info : dict string) (bname odata : string) : M string :=
  let* data :=
    (if String.eqb bname "Utilities.js" && negb (bool_decide (info = []))
     then print (MAddingVcs bname) ;> ret (stamp_vcs info odata)
     else ret odata) in
  ret (downlevel data).

Definition minify_cmd (minifier fsrc dst ftype : string) : res (list string) :=
  if String.eqb minifier "uglifyjs" then
    Ok ["uglifyjs"; fsrc; "-o"; dst; "--compress"]
  else if String.eqb minifier "yuicompressor" then
    Ok (match yuicompressor_jar E with
        | Some jar => [default "java" (dict_get "JAVA" (environ E)); "-jar"; jar]
        | None => ["yuicompressor"]
        end
        ++ [fsrc; "--nomunge"; "--line-break"; "400"; "--type"; ftype; "-o"; dst])
  else Raise AssertionError.

Definition gzip_cmd (dst : string) : list string :=
  ["gzip"; "-f"; "-n"; "-9"; "-k"; dst].

(** The command line of brotli: the short form from version 1 on. *)
Definition brotli_argv (brotli_cmd : string) (brotli_version : option string)
    (dst : string) : list string :=
  let br_dst := dst +:+ ".br" in
  match brotli_version with
  | Some v =>
      if not_empty v && String.leb "1" v
      then [brotli_cmd; "-k"; dst]
      else [brotli_cmd; "--input"; dst; "--output"; br_dst]
  | None => [brotli_cmd; "--input"; dst; "--output"; br_dst]
  end.

(** The sidecars of an installed file; [Break] is the [break] statement
    after a brotli file was made. *)
Definition compress (gzip brotli : bool) (brotli_cmd brotli_version : option string)
    (dst : string) : M ctl :=
  when gzip
    (let gzip_dst := dst +:+ ".gz" in
     let* there := Os.path_exists gzip_dst in
     when there (Os.unlink gzip_dst) ;>
     get_status_output (gzip_cmd dst) gzip_dst ;>
     let* made := Os.path_exists gzip_dst in
     when made (Os.chmod gzip_dst)) ;>
  match brotli, brotli_cmd with
  | true, Some cmd_path =>
      let br_dst := dst +:+ ".br" in
      let* there := Os.path_exists br_dst in
      when there (Os.unlink br_dst) ;>
      let cmd := brotli_argv cmd_path brotli_version dst in
      let* '(code, out, err) := get_status_output cmd br_dst in
      if negb (code =? 0) then
        print (MBrotliError code cmd) ;>
        when (not_empty out) (print (MStdout out)) ;>
        when (not_empty err) (print (MStderr err)) ;>
        ret Next
      else
        let* made := Os.path_exists br_dst in
        if made then Os.chmod br_dst ;> ret Break
        else print (MBrotliNotCreated br_dst) ;> ret Next
  | _, _ => ret Next
  end.

(** [os.path.splitext(fname)[1].lstrip(".")] *)
Definition ftype_of (fname : string) : string :=
  Py.lstrip_chars "." (Path.splitext_ext fname).

(** The body of the loop over the files of a directory; [install_dir] is
    assigned in it, so it is returned. *)
Definition install_file (info : dict string) (minifier : option string)
    (gzip brotli : bool) (brotli_cmd brotli_version : option string)
    (install_dir fname : string) : M (ctl * string) :=
  if Py.endswith fname ".tmp" then ret (Next, install_dir)
  else
    let src := Path.join (getcwd E) fname in
    let parts := Py.split Path.sep fname in
    let* fname :=
      (match parts with
       | parts0 :: parts1 =>
           if String.eqb parts0 "html5" then
             match Path.join_all parts1 with
             | Some f => ret f
             | None => raise TypeError
             end
           else ret fname
       | [] => raise IndexError
       end) in
    let install_dir := if String.eqb install_dir "." then getcwd E else install_dir in
    let dst := Path.join install_dir fname in
    let* there := Os.path_exists dst in
    when there (Os.unlink dst) ;>
    (*try to find an existing installed library and symlink it:*)
    let symlink_options := default [] (dict_get (Path.basename fname) symlinks) in
    let* linked := install_symlink symlink_options dst in
    if linked then
      (*we've created a symlink, skip minification and compression*)
      ret (Next, install_dir)
    else
      let ddir := Path.dirname dst in
      let* ddir_there := Os.path_exists ddir in
      when (not_empty ddir && negb ddir_there) (Os.makedirs ddir) ;>
      let ftype := ftype_of fname in
      let bname := Path.basename src in
      let* fsrc :=
        (if String.eqb ftype "js" || Py.endswith fname "index.html" then
           (*save to a temporary file after replacing strings:*)
           let* odata := Os.read_file src in
           let* data := transform info bname odata in
           if negb (String.eqb data odata) then
             let fsrc := src +:+ ".tmp" in
             Os.write_file fsrc data ;> Os.chmod fsrc ;> ret fsrc
           else ret src
         else ret src) in
      (if wants_minifier minifier && String.eqb ftype "js" then
         match minify_cmd (default EmptyString minifier) fsrc dst ftype with
         | Raise e => raise e
         | Ok cmd =>
             let* '(r, _, _) := get_status_output cmd dst in
             when (negb (r =? 0))
               (print (MMinifyFailed bname cmd r) ;> Os.copyfile fsrc dst) ;>
             Os.chmod dst ;>
             print (MMinified fname)
         end
       else
         print (MCopied fname) ;>
         Os.copyfile fsrc dst ;>
         Os.chmod dst) ;>
      when (negb (String.eqb fsrc src)) (Os.unlink fsrc) ;>
      if negb (String.eqb ftype "png") then
        let* c := compress gzip brotli brotli_cmd brotli_version dst in
        ret (c, install_dir)
      else ret (Next, install_dir).

Section Loops.

Variables (info : dict string) (minifier : option string) (gzip brotli : bool)
  (brotli_cmd brotli_version : option string).

(** [for fname in files] *)
Fixpoint for_files (files : list string) (install_dir : string) : M string :=
  match files with
  | [] => ret install_dir
  | fname :: rest =>
      let* '(c, install_dir) :=
        install_file info minifier gzip brotli brotli_cmd brotli_version
          install_dir fname in
      match c with
      | Next => for_files rest install_dir
      | Break => ret install_dir
      end
  end.

(** [for k,files in glob_recurse("html5").items()] *)
Fixpoint for_dirs (items : list (string * list string)) (install_dir : string)
  : M string :=
  match items with
  | [] => ret install_dir
  | (_, files) :: rest =>
      let* install_dir := for_files files install_dir in
      for_dirs rest install_dir
  end.

End Loops.

Definition background_paths : list string :=
  [ "/usr/share/backgrounds/images/default.png";
    "/usr/share/backgrounds/images/*default*.png";
    "/usr/share/backgrounds/*default*png";
    "/usr/share/backgrounds/gnome/adwaita*.jpg";    (*Debian Stretch*)
    "/usr/share/backgrounds/images/*jpg" ].         (*CentOS 7*)

(** On a posix host ([os.name], [sys.platform]). *)
Definition install_html5 (install_dir : string) (minifier : option string)
    (gzip brotli : bool) : M unit :=
  let* info := load_vcs_info in
  (if wants_minifier minifier
   then print (MMinifying install_dir (default EmptyString minifier))
   else print (MCopying install_dir)) ;>
  let* '(brotli_cmd, brotli_version) :=
    (if brotli then
       (*find brotli on $PATH*)
       let paths := Py.split ":"%char (default EmptyString (dict_get "PATH" (environ E))) in
       find_brotli (paths ++ ["/usr/local/bin"])
     else ret (None, None)) in
  print (MBrotliCmd brotli_cmd) ;>
  when (not_empty (default EmptyString brotli_version))
    (print (MBrotliVersion (default EmptyString brotli_version))) ;>
  let* install_dir :=
    for_dirs info minifier gzip brotli brotli_cmd brotli_version
      (glob_recurse "html5") install_dir in
  print (MBackgroundPaths background_paths) ;>
  install_symlink background_paths (Path.join install_dir "background.png") ;>
  ret tt.

End Script.

(** * The vocabulary of the statements *)

(** The three parts of what a computation leaves: what it returned or
    raised, the file system, the trace. *)
Definition result {A} (x : res A * gmap string node * list event) : res A := x.1.1.

Definition final_fs {A} (x : res A * gmap string node * list event)
  : gmap string node := x.1.2.

Definition trace {A} (x : res A * gmap string node * list event) : list event := x.2.

(** ** Version-control metadata *)

(** The two queries [get_output_line] is used for. *)
Definition describe_cmd : string := "git describe --always --tags".

Definition rev_list_cmd : string := "git rev-list --count HEAD --first-parent".

(** The text [get_vcs_info] takes the revision from: on master the first
    line of the commit count, elsewhere the middle part of the described
    name ([VInt 0] when that has not three parts). *)
Definition revision_text (E : env) : pyval :=
  if pyval_eqb_str (find_branch E branch_cmds) "master" then
    let p := sh E rev_list_cmd in
    if returncode p =? 0
    then match Py.splitlines (stdout p) with
         | v :: _ => VStr v
         | [] => VNone
         end
    else VNone
  else match Py.splitlines (stdout (sh E describe_cmd)) with
       | d :: _ => describe_rev d
       | [] => VInt 0
       end.

(** ** Outcomes and traces *)

(** How a run disposed of an asset, read off the trace: the three
    [print] calls that close the three ways through the loop body. *)
Inductive outcome : Type := Symlinked | InstalledViaCopy | InstalledViaMinify.

(** The outcome an event tells of the asset [fname] installed at [dst]. *)
Definition outcome_of (dst fname : string) (e : event) : option outcome :=
  match e with
  | EPrint (MSymlinked d _) => if String.eqb d dst then Some Symlinked else None
  | EPrint (MCopied n) => if String.eqb n fname then Some InstalledViaCopy else None
  | EPrint (MMinified n) => if String.eqb n fname then Some InstalledViaMinify else None
  | _ => None
  end.

(** The outcomes of an asset in a trace, in order. *)
Definition outcomes (install_dir fname : string) (t : list event) : list outcome :=
  omap (outcome_of (Path.join install_dir fname) fname) t.

(** ** Lines and characters *)

(** Every character of [s] satisfies [P]. *)
Fixpoint all_chars (P : ascii -> bool) (s : string) : bool :=
  match s with
  | EmptyString => true
  | String c s' => P c && all_chars P s'
  end.

(** No character of [s] is a boundary for [splitlines]. *)
Definition no_linebreak (s : string) : bool :=
  all_chars (fun c => negb (Py.is_linebreak c)) s.



(** ** The compression step *)










(** ** What a computation can write to the trace *)


(** ** The loop body *)





(** ** Symbolic links *)

(** The destination is not a broken link. *)
Definition settled (f : gmap string node) (dst : string) : Prop :=
  FS.lexists f dst = true -> FS.path_exists f dst = true.

(** ** The sidecar file of the metadata *)














(** ** Version stamping *)

(** One of the two strings starts with the other. *)
Definition clash (a b : string) : bool := String.prefix a b || String.prefix b a.

(** No end of [old] that is not empty runs into [lit]. *)
Fixpoint ends_clear (old lit : string) : bool :=
  match old with
  | EmptyString => true
  | String _ old' => negb (clash old lit) && ends_clear old' lit
  end.

(** [old] starts nowhere inside [lit]. *)
Fixpoint starts_clear (old lit : string) : bool :=
  match lit with
  | EmptyString => true
  | String _ lit' => negb (clash old lit) && starts_clear old lit'
  end.

(** The three default initialisers of [Utilities.js]. *)
Definition lit_revision : string := "REVISION : 0,".

Definition lit_local_modifications : string := "LOCAL_MODIFICATIONS : 0,".

Definition lit_branch : string :=
  "BRANCH : " +:+ dquote +:+ "master" +:+ dquote +:+ ",".

(** The field is not in the mapping, or is there with an empty value:
    what [if REVISION:] and its like test. *)
Definition absent (info : dict string) (key : string) : Prop :=
  default EmptyString (dict_get key info) = EmptyString.

(** One of the three replacements of [stamp_vcs]. *)
Definition stamp_field (info : dict string) (key old before after data : string)
  : string :=
  let value := default EmptyString (dict_get key info) in
  if not_empty value then Py.replace data old (before +:+ value +:+ after) else data.

(** The characters the atoms of a pattern can match. *)
Definition in_atoms (l : list (Re.cls * Re.quant)) (c : ascii) : bool :=
  existsb (fun a => Re.in_cls (fst a) c) l.

(** A literal the downleveling cannot reach: it has no line end in it, and
    every rule is anchored and matches only characters that its first
    character is not. *)
Definition out_of_reach (lit : string) : bool :=
  no_linebreak lit &&
  match lit with
  | String c0 _ =>
      forallb (fun rule => match Re.compile (fst rule) with
                           | Some p => Re.anchored p && negb (in_atoms (Re.atoms p) c0)
                                       && no_linebreak (snd rule)
                           | None => true
                           end) downlevel_rules
  | EmptyString => false
  end.

(** The fields of the mapping with their default initialisers. *)
Definition default_literals : list (string * string) :=
  [ ("REVISION", lit_revision);
    ("LOCAL_MODIFICATIONS", lit_local_modifications);
    ("BRANCH", lit_branch) ].

(** ** Concrete environments and file systems *)

(** Outside a work tree every query exits with status 128. *)
Definition E_no_repository : env := {|
  sh := fun _ => Proc 128 EmptyString "fatal: not a git repository";
  exec := fun _ _ => None;
  glob_magic := fun _ _ => [];
  os_walk := fun _ => [];
  getcwd := "/src";
  environ := [];
  yuicompressor_jar := None
|}.

(** A tag named like a described name, checked out on a branch [dev] with
    a clean tree. *)
Definition E_tag_zero : env := {|
  sh := fun cmd =>
    if String.eqb cmd "git branch --show-current" then Proc 0 "dev" EmptyString
    else if String.eqb cmd describe_cmd then Proc 0 "release-0-final" EmptyString
    else if String.eqb cmd "git status" then Proc 0 "nothing to commit" EmptyString
    else Proc 1 EmptyString EmptyString;
  exec := fun _ _ => None;
  glob_magic := fun _ _ => [];
  os_walk := fun _ => [];
  getcwd := "/src";
  environ := [];
  yuicompressor_jar := None
|}.

(** A file [a.js] that the pattern [*.js] matches. *)
Definition E_one_script : env := {|
  sh := fun _ => Proc 1 EmptyString EmptyString;
  exec := fun _ _ => None;
  glob_magic := fun _ pattern => if String.eqb pattern "*.js" then ["a.js"] else [];
  os_walk := fun _ => [];
  getcwd := "/src";
  environ := [];
  yuicompressor_jar := None
|}.

(** The file [a.js] in the current directory. *)
Definition fs_one_script : gmap string node := {[ "a.js" := File "var a;" ]}.

(** Two style sheets in the source directory, gzip and brotli installed
    and working. *)
(** gzip and [/usr/bin/brotli] installed and working, nothing else. *)
Definition exec_tools (cmd : list string) (f : gmap string node)
  : option (proc * option string) :=
  match cmd with
  | "gzip" :: _ => Some (Proc 0 EmptyString EmptyString, Some "gz")
  | ["/usr/bin/brotli"; "--version"] => Some (Proc 0 "brotli 1.0.9" EmptyString, None)
  | "/usr/bin/brotli" :: _ => Some (Proc 0 EmptyString EmptyString, Some "br")
  | _ => None
  end.

Definition E_two_sheets : env := {|
  sh := fun _ => Proc 128 EmptyString EmptyString;
  exec := exec_tools;
  glob_magic := fun _ _ => [];
  os_walk := fun _ => [("html5", ["a.css"; "b.css"])];
  getcwd := "/src";
  environ := [("PATH", "/usr/bin")];
  yuicompressor_jar := None
|}.

(** The two style sheets and the brotli program. *)
Definition fs_two_sheets : gmap string node :=
  {[ "/src/html5/a.css" := File "a {}";
     "/src/html5/b.css" := File "b {}";
     "/usr/bin/brotli" := File "ELF" ]}.





(** The link of an earlier run to the first candidate, which is gone; the
    second candidate is there. *)
Definition fs_moved_library : gmap string node :=
  {[ "www/js/lib/jquery.js" := Symlink "/usr/share/javascript/jquery/jquery.js";
     "/usr/share/javascript/jquery/latest/jquery.js" := File "jQuery" ]}.



(** * Properties *)

(** ** Running the monad *)

Lemma bind_ok {A B} (c : M A) (k : A -> M B) f b f' t :
  bind c k f = (Ok b, f', t) ->
  exists a f1 t1 t2,
    c f = (Ok a, f1, t1) /\ k a f1 = (Ok b, f', t2) /\ t = t1 ++ t2.
Proof.
  unfold bind. destruct (c f) as [[[a | e] f1] t1]; [|discriminate].
  destruct (k a f1) as [[r f2] t2] eqn:Hk. intros [= -> -> <-].
  by exists a, f1, t1, t2.
Qed.

Lemma bind_run {A B} (c : M A) (k : A -> M B) f a f1 t1 :
  c f = (Ok a, f1, t1) ->
  bind c k f = (let '(r, f2, t2) := k a f1 in (r, f2, t1 ++ t2)).
Proof. unfold bind. by intros ->. Qed.

Lemma bind_raise {A B} (c : M A) (k : A -> M B) f e f1 t1 :
  c f = (Raise e, f1, t1) -> bind c k f = (Raise e, f1, t1).
Proof. unfold bind. by intros ->. Qed.

(** ** Version-control metadata *)

Section Vcs.

Variable E : env.

Lemma get_output_line_ok cmd f v f' t :
  get_output_line E cmd f = (Ok v, f', t) ->
  f' = f /\
  v = (if returncode (sh E cmd) =? 0
       then match Py.splitlines (stdout (sh E cmd)) with
            | l :: _ => VStr l
            | [] => VNone
            end
       else VNone) /\
  (returncode (sh E cmd) = 0 -> Py.splitlines (stdout (sh E cmd)) <> []).
Proof.
  unfold get_output_line.
  destruct (returncode (sh E cmd) =? 0) eqn:Hrc; simpl.
  - destruct (Py.splitlines (stdout (sh E cmd))) as [|l ls]; [discriminate|].
    intros [= <- <- <-]. done.
  - intros [= <- <- <-]. split_and!; [done..|]. lia.
Qed.

End Vcs.

(** C5: [get_vcs_info] does not survive a failing [git describe]: the
    [None] that [get_output_line] returns for a command that exits with a
    non-zero status is split at once, which raises [AttributeError]; no
    mapping is returned. *)
Theorem C5_describe_failure_raises (E : env) (f : gmap string node) :
  returncode (sh E describe_cmd) <> 0 ->
  result (get_vcs_info E f) = Raise AttributeError.
Proof.
  intros Hrc. unfold get_vcs_info, result.
  assert (Hline : forall g, exists t,
    get_output_line E "git describe --always --tags" g = (Ok VNone, g, t)).
  { intros g. unfold get_output_line. fold describe_cmd.
    apply Z.eqb_neq in Hrc. rewrite Hrc. simpl. eauto. }
  destruct (negb (truthy (find_branch E branch_cmds))).
  - unfold bind at 1. simpl.
    destruct (Hline f) as [t Ht]. by rewrite (bind_run _ _ _ _ _ _ Ht).
  - unfold bind at 1. simpl.
    destruct (Hline f) as [t Ht]. by rewrite (bind_run _ _ _ _ _ _ Ht).
Qed.

(** Outside a work tree [get_vcs_info] raises. *)
Lemma C5_describe_failure_raises_witness :
  returncode (sh E_no_repository describe_cmd) <> 0 /\
  result (get_vcs_info E_no_repository ∅) = Raise AttributeError.
Proof.
  split.
  - simpl. lia.
  - apply (C5_describe_failure_raises E_no_repository ∅). simpl. lia.
Defined.

(** A query that exits with 0 and prints nothing is no better:
    [splitlines()[0]] raises [IndexError]. *)
Lemma get_vcs_info_silent_describe_raises (E : env) (f : gmap string node) :
  returncode (sh E describe_cmd) = 0 ->
  Py.splitlines (stdout (sh E describe_cmd)) = [] ->
  result (get_vcs_info E f) = Raise IndexError.
Proof.
  intros Hrc Hout. unfold get_vcs_info, result.
  assert (Hline : forall g,
    get_output_line E "git describe --always --tags" g = (Raise IndexError, g, [])).
  { intros g. unfold get_output_line. fold describe_cmd.
    by rewrite Hrc, Hout. }
  destruct (negb (truthy (find_branch E branch_cmds)));
    unfold bind at 1; simpl; by rewrite (bind_raise _ _ _ _ _ _ (Hline f)).
Qed.
Lemma dict_get_set_eq {V} k (v : V) d : dict_get k (dict_set k v d) = Some v.
Proof.
  induction d as [|[k' v'] d IH]; simpl.
  - by rewrite String.eqb_refl.
  - destruct (String.eqb k' k) eqn:Hk; simpl.
    + by rewrite String.eqb_refl.
    + by rewrite Hk.
Qed.

Lemma dict_get_set_ne {V} k k' (v : V) d :
  k <> k' -> dict_get k' (dict_set k v d) = dict_get k' d.
Proof.
  intros Hne. induction d as [|[k0 v0] d IH]; simpl.
  - apply String.eqb_neq in Hne. by rewrite Hne.
  - destruct (String.eqb k0 k) eqn:Hk; simpl.
    + apply String.eqb_eq in Hk. subst k0.
      apply String.eqb_neq in Hne. by rewrite Hne.
    + by rewrite IH.
Qed.

(** C9, amended: when [get_vcs_info] returns, [LOCAL_MODIFICATIONS] is
    absent exactly when the count of changes is 0, and is the count
    otherwise.  [REVISION] is absent when the revision text is missing
    (the default 0, [None] or an empty text) or does not convert to an
    integer; otherwise it is the integer the text converts to, which is 0
    for the text "0". *)
Theorem C9_zero_only_for_missing_text (E : env) (f f' : gmap string node)
    (info : dict pyval) (t : list event) :
  get_vcs_info E f = (Ok info, f', t) ->
  dict_get "REVISION" info =
    (if truthy (revision_text E) then VInt <$> int_of (revision_text E) else None)
  /\ dict_get "LOCAL_MODIFICATIONS" info =
    (if status_changes E =? 0 then None else Some (VInt (status_changes E))).
Proof.
  unfold get_vcs_info. intros H.
  apply bind_ok in H as (info0 & f1 & t1 & t2 & H0 & H & ->).
  apply bind_ok in H as (described & f2 & t3 & t4 & Hd & H & ->).
  apply get_output_line_ok in Hd as (-> & Hdv & Hdne).
  destruct described as [| |d]; [discriminate..|].
  apply bind_ok in H as (rev & f3 & t5 & t6 & Hrev & H & ->).
  apply bind_ok in H as (info1 & f4 & t7 & t8 & Hi1 & H & ->).
  injection H as <- <- <-.
  assert (Hkeys0 : dict_get "REVISION" info0 = None /\
                   dict_get "LOCAL_MODIFICATIONS" info0 = None).
  { destruct (negb (truthy (find_branch E branch_cmds))).
    - apply bind_ok in H0 as (? & ? & ? & ? & _ & [= <- <- <-] & _). done.
    - injection H0 as <- <- <-. done. }
  destruct Hkeys0 as [Hr0 Hl0].
  assert (Hrevtext : rev = revision_text E).
  { unfold revision_text. fold describe_cmd in Hdv.
    destruct (pyval_eqb_str (find_branch E branch_cmds) "master").
    - apply get_output_line_ok in Hrev as (_ & -> & _). done.
    - injection Hrev as <- <- <-.
      destruct (returncode (sh E describe_cmd) =? 0); [|discriminate].
      destruct (Py.splitlines (stdout (sh E describe_cmd))); [discriminate|].
      by injection Hdv as ->. }
  subst rev.
  assert (Hr1 : dict_get "REVISION" info1 =
      (if truthy (revision_text E) then VInt <$> int_of (revision_text E) else None)
      /\ dict_get "LOCAL_MODIFICATIONS" info1 = None).
  { destruct (truthy (revision_text E)).
    - destruct (int_of (revision_text E)) as [n|].
      + injection Hi1 as <- <- <-. rewrite dict_get_set_eq.
        by rewrite dict_get_set_ne.
      + apply bind_ok in Hi1 as (? & ? & ? & ? & _ & [= <- <- <-] & _). done.
    - injection Hi1 as <- <- <-. done. }
  destruct Hr1 as [Hr1 Hl1].
  unfold truthy. destruct (status_changes E =? 0); simpl.
  - done.
  - rewrite dict_get_set_eq. by rewrite dict_get_set_ne.
Qed.

(** The tag [release-0-final]: the revision text is "0", and 0 is
    recorded. *)
Lemma C9_zero_only_for_missing_text_witness :
  get_vcs_info E_tag_zero ∅
    = (Ok [("BRANCH", VStr "dev"); ("REVISION", VInt 0)], ∅, []) /\
  dict_get "REVISION" [("BRANCH", VStr "dev"); ("REVISION", VInt 0)] =
    (if truthy (revision_text E_tag_zero)
     then VInt <$> int_of (revision_text E_tag_zero) else None)
  /\ dict_get "LOCAL_MODIFICATIONS" [("BRANCH", VStr "dev"); ("REVISION", VInt 0)] =
    (if status_changes E_tag_zero =? 0 then None
     else Some (VInt (status_changes E_tag_zero))).
Proof.
  split.
  - reflexivity.
  - apply (C9_zero_only_for_missing_text E_tag_zero ∅ ∅ _ []). reflexivity.
Defined.

(** C9, as stated, fails: the revision computed from the described name
    [release-0-final] is 0, and [REVISION] is recorded with the value 0,
    because the test before the conversion is on the text "0", which is
    true. *)
Lemma C9_revision_zero_is_recorded :
  exists info,
    result (get_vcs_info E_tag_zero ∅) = Ok info /\
    int_of (revision_text E_tag_zero) = Some 0 /\
    dict_get "REVISION" info = Some (VInt 0).
Proof. eexists. split; [reflexivity|]. split; reflexivity. Qed.

(** ** [install_symlink] *)

Lemma find_lower_bound s sub : -1 <= Py.find s sub.
Proof.
  induction s as [|c s IH]; cbn [Py.find].
  - case_match; lia.
  - case_match; [lia|]. case_match; lia.
Qed.

Lemma find_zero_iff_prefix s sub : Py.find s sub = 0 <-> String.prefix sub s = true.
Proof.
  destruct s as [|c s]; cbn [Py.find].
  - case_match; split; intros; (done || lia).
  - case_match; [done|].
    pose proof (find_lower_bound s sub).
    case_match; split; intros; (done || lia).
Qed.

(** The test in front of the expansion: true unless the candidate starts
    with a star. *)
Lemma find_star_test_leading_star symlink_option :
  find_star_test symlink_option = negb (Py.startswith symlink_option "*").
Proof.
  unfold find_star_test, truthy, Py.startswith.
  destruct (String.prefix "*" symlink_option) eqn:Hp.
  - apply find_zero_iff_prefix in Hp. by rewrite Hp.
  - simpl. destruct (Py.find symlink_option "*" =? 0) eqn:Hz; [|done].
    apply Z.eqb_eq, find_zero_iff_prefix in Hz. congruence.
Qed.

(** C6: the test in front of the expansion is the truth value of
    [find("*")], which is -1, hence true, for a candidate without a star
    and 0, hence false, for a candidate that starts with one: the expansion
    is applied to every candidate except those that start with a star.  So
    the literal candidate [/usr/share/javascript/jquery/jquery.js] goes
    through [glob] and the pattern [*.js] does not: with [a.js] on disk,
    nothing is linked. *)
Theorem C6_expansion_test_is_no_leading_star :
  (forall symlink_option,
     find_star_test symlink_option = negb (Py.startswith symlink_option "*")) /\
  find_star_test "/usr/share/javascript/jquery/jquery.js" = true /\
  has_magic "/usr/share/javascript/jquery/jquery.js" = false /\
  has_magic "*.js" = true /\
  glob E_one_script "*.js" fs_one_script = (Ok ["a.js"], fs_one_script, []) /\
  install_symlink E_one_script ["*.js"] "www/a.js" fs_one_script
    = (Ok false, fs_one_script, []).
Proof. split; [exact find_star_test_leading_star|by vm_compute]. Qed.

(** ** The loop of [install_html5] *)

(** C1: the [break] after a brotli file was made leaves the loop over the
    files of the directory, so the files after it are not visited.  Of the
    two discovered style sheets the first is installed by copy; the second
    is neither linked, copied nor minified, and nothing is at its
    destination, though the run ends normally. *)
Theorem C1_break_skips_rest_of_directory :
  let run := install_html5 E_two_sheets "www" (Some "uglifyjs") true true fs_two_sheets in
  glob_recurse E_two_sheets "html5" = [(EmptyString, ["html5/a.css"; "html5/b.css"])] /\
  result run = Ok tt /\
  outcomes "www" "a.css" (trace run) = [InstalledViaCopy] /\
  outcomes "www" "b.css" (trace run) = [] /\
  final_fs run !! "www/a.css" = Some (File "a {}") /\
  final_fs run !! "www/b.css" = None.
Proof. by vm_compute. Qed.

(** ** Syntax downleveling *)














(** ** Compression *)



Section Compress.

Variable E : env.

Lemma get_status_output_run cmd output f :
  get_status_output E cmd output f =
    match exec E cmd f with
    | None => (Ok (-1, EmptyString, EmptyString), f,
               [ERun cmd None; EPrint (MErrorRunning cmd)])
    | Some (p, w) =>
        (Ok (returncode p, stdout p, stderr p),
         match w with Some bytes => <[output := File bytes]> f | None => f end,
         [ERun cmd (Some (p, w))])
    end.
Proof.
  unfold get_status_output, bind, get_fs, log_run, put_fs, print, ret.
  destruct (exec E cmd f) as [[p [bytes|]]|]; reflexivity.
Qed.

Lemma path_exists_lexists (f : gmap string node) p :
  FS.path_exists f p = true -> FS.lexists f p = true.
Proof.
  unfold FS.path_exists, FS.resolve, FS.lexists. simpl.
  destruct (f !! p) as [[]|]; done.
Qed.











End Compress.




(** ** What a computation can write to the trace *)

Section Traces.

Context {P : event -> Prop}.








End Traces.



Section TracesOfTheScript.

Variable E : env.
Context {P : event -> Prop}.











End TracesOfTheScript.

(** ** The loop body *)

Section InstallFile.

Variable E : env.









End InstallFile.



(** Other image types are not exempt. *)
Lemma other_image_types_are_compressed :
  Forall (fun n => ftype_of n <> "png")
    ["icons/close.jpg"; "icons/spinner.gif"; "favicon.ico"; "icons/logo.svg";
     "icons/LOGO.PNG"].
Proof. repeat constructor; by vm_compute. Qed.


(** ** The order of the candidates of [install_symlink] *)

Section SymlinkOrder.

Variable E : env.

Lemma no_magic_no_leading_star s : has_magic s = false -> find_star_test s = true.
Proof.
  intros Hm. rewrite find_star_test_leading_star.
  destruct s as [|c s]; [done|]. unfold Py.startswith.
  unfold has_magic in Hm. cbn [String.list_ascii_of_string existsb] in Hm.
  apply orb_false_iff in Hm as [Hc _].
  change (String.prefix "*" (String c s))
    with (if Ascii.ascii_dec "*" c then String.prefix EmptyString s else false).
  destruct (Ascii.ascii_dec "*" c) as [<-|Hne]; [by vm_compute in Hc|done].
Qed.

(** What a literal candidate does: nothing when it does not exist, the
    link when it does. *)
Lemma install_symlink_missing_candidate o rest dst f :
  has_magic o = false -> FS.path_exists f o = false ->
  install_symlink E (o :: rest) dst f = install_symlink E rest dst f.
Proof.
  intros Hm Hex. cbn [install_symlink]. rewrite (no_magic_no_leading_star _ Hm).
  cbv [bind glob ret raise get_fs put_fs print when Os.path_exists].
  rewrite Hm. cbn beta iota zeta.
  destruct (FS.lexists f o); cbn beta iota zeta.
  - rewrite Hex. by destruct (install_symlink E rest dst f) as [[r f2] t2].
  - by destruct (install_symlink E rest dst f) as [[r f2] t2].
Qed.

Lemma install_symlink_existing_candidate o rest dst f :
  has_magic o = false -> FS.path_exists f o = true -> settled f dst ->
  install_symlink E (o :: rest) dst f
  = (Ok true, <[dst := Symlink o]> f, [EPrint (MSymlinked dst o)]).
Proof.
  intros Hm Hex Hdst. cbn [install_symlink]. rewrite (no_magic_no_leading_star _ Hm).
  cbv [bind glob ret raise get_fs put_fs print when Os.path_exists Os.unlink Os.symlink].
  rewrite Hm. cbn beta iota zeta.
  rewrite (path_exists_lexists _ _ Hex). cbn beta iota zeta.
  rewrite Hex. cbn beta iota zeta.
  destruct (FS.path_exists f dst) eqn:Hd; cbn beta iota zeta.
  - rewrite (path_exists_lexists _ _ Hd). cbn beta iota zeta.
    unfold FS.lexists. rewrite lookup_delete_eq. cbn beta iota zeta.
    by rewrite insert_delete_eq.
  - destruct (FS.lexists f dst) eqn:Hl; [by rewrite (Hdst Hl) in Hd|].
    done.
Qed.

Lemma install_symlink_broken_destination o rest dst f :
  has_magic o = false -> FS.path_exists f o = true ->
  FS.lexists f dst = true -> FS.path_exists f dst = false ->
  install_symlink E (o :: rest) dst f
  = (Raise FileExistsError, f, [EPrint (MSymlinked dst o)]).
Proof.
  intros Hm Hex Hl Hd. cbn [install_symlink]. rewrite (no_magic_no_leading_star _ Hm).
  cbv [bind glob ret raise get_fs put_fs print when Os.path_exists Os.unlink Os.symlink].
  rewrite Hm. cbn beta iota zeta.
  rewrite (path_exists_lexists _ _ Hex). cbn beta iota zeta.
  rewrite Hex. cbn beta iota zeta. rewrite Hd. cbn beta iota zeta.
  by rewrite Hl.
Qed.

(** Where the destination is not a broken link, the candidates are tried
    in order: the first that exists is linked, and with none the
    destination is left alone. *)
Lemma install_symlink_respects_priority A B dst f :
  has_magic A = false -> has_magic B = false -> settled f dst ->
  (FS.path_exists f A = false -> FS.path_exists f B = true ->
   install_symlink E [A; B] dst f
   = (Ok true, <[dst := Symlink B]> f, [EPrint (MSymlinked dst B)])) /\
  (FS.path_exists f A = true ->
   install_symlink E [A; B] dst f
   = (Ok true, <[dst := Symlink A]> f, [EPrint (MSymlinked dst A)])) /\
  (FS.path_exists f A = false -> FS.path_exists f B = false ->
   install_symlink E [A; B] dst f = (Ok false, f, [])).
Proof.
  intros HA HB Hdst. split_and!.
  - intros HexA HexB. rewrite install_symlink_missing_candidate by done.
    by apply install_symlink_existing_candidate.
  - intros HexA. by apply install_symlink_existing_candidate.
  - intros HexA HexB. by rewrite !install_symlink_missing_candidate by done.
Qed.

End SymlinkOrder.

(** C7: the candidates are tried in order, but a destination that is a
    broken link (what an earlier run leaves when the file it linked to is
    removed later) is not cleared: [os.path.exists] is false for it, so it
    is not unlinked, and [os.symlink] then raises [FileExistsError].  With
    only [B] on disk the destination is not linked to [B] and [True] is
    not returned. *)
Theorem C7_broken_destination_raises (E : env) (A B dst target : string)
    (f : gmap string node) :
  has_magic A = false -> has_magic B = false ->
  FS.path_exists f A = false -> FS.path_exists f B = true ->
  f !! dst = Some (Symlink target) -> FS.path_exists f dst = false ->
  install_symlink E [A; B] dst f
  = (Raise FileExistsError, f, [EPrint (MSymlinked dst B)]).
Proof.
  intros HA HB HexA HexB Hdst Hbroken.
  rewrite install_symlink_missing_candidate by done.
  apply install_symlink_broken_destination; try done.
  unfold FS.lexists. by rewrite Hdst.
Qed.

(** The jquery library moved between two runs. *)
Lemma C7_broken_destination_raises_witness :
  (has_magic "/usr/share/javascript/jquery/jquery.js" = false /\
   has_magic "/usr/share/javascript/jquery/latest/jquery.js" = false /\
   FS.path_exists fs_moved_library "/usr/share/javascript/jquery/jquery.js" = false /\
   FS.path_exists fs_moved_library "/usr/share/javascript/jquery/latest/jquery.js" = true /\
   fs_moved_library !! "www/js/lib/jquery.js"
     = Some (Symlink "/usr/share/javascript/jquery/jquery.js") /\
   FS.path_exists fs_moved_library "www/js/lib/jquery.js" = false) /\
  install_symlink E_no_repository
    ["/usr/share/javascript/jquery/jquery.js";
     "/usr/share/javascript/jquery/latest/jquery.js"]
    "www/js/lib/jquery.js" fs_moved_library
  = (Raise FileExistsError, fs_moved_library,
     [EPrint (MSymlinked "www/js/lib/jquery.js"
                "/usr/share/javascript/jquery/latest/jquery.js")]).
Proof.
  split.
  - split_and!; by vm_compute.
  - apply (C7_broken_destination_raises E_no_repository
             "/usr/share/javascript/jquery/jquery.js"
             "/usr/share/javascript/jquery/latest/jquery.js"
             "www/js/lib/jquery.js" "/usr/share/javascript/jquery/jquery.js"
             fs_moved_library); by vm_compute.
Defined.

(** ** The round trip of the version-control metadata *)

Lemma all_chars_impl (P Q : ascii -> bool) s :
  (forall c, P c = true -> Q c = true) -> all_chars P s = true -> all_chars Q s = true.
Proof.
  intros HPQ. induction s as [|c s IH]; [done|]. cbn [all_chars].
  intros [Hc Hs]%andb_true_iff. by rewrite (HPQ c Hc), (IH Hs).
Qed.



Lemma append_cons c s1 s2 : String c s1 +:+ s2 = String c (s1 +:+ s2).
Proof. reflexivity. Qed.

Lemma append_nil s : EmptyString +:+ s = s.
Proof. reflexivity. Qed.

Lemma append_assoc s1 s2 s3 : (s1 +:+ s2) +:+ s3 = s1 +:+ s2 +:+ s3.
Proof. induction s1 as [|c s1 IH]; [done|]. by rewrite !append_cons, IH. Qed.












Section RoundTrip.

Variable E : env.




End RoundTrip.







(** ** Version stamping *)

Lemma prefix_cons a s1 b s2 :
  String.prefix (String a s1) (String b s2)
  = (if Ascii.ascii_dec a b then String.prefix s1 s2 else false).
Proof. reflexivity. Qed.

Lemma prefix_nil_l s : String.prefix EmptyString s = true.
Proof. by destruct s. Qed.

Lemma prefix_nil_r a s : String.prefix (String a s) EmptyString = false.
Proof. reflexivity. Qed.

Lemma prefix_app_l o u x : String.prefix o u = true -> String.prefix o (u +:+ x) = true.
Proof.
  revert u. induction o as [|a o IH]; intros u; [by rewrite !prefix_nil_l|].
  destruct u as [|b u]; [done|]. rewrite append_cons, !prefix_cons.
  destruct (Ascii.ascii_dec a b); [apply IH|done].
Qed.

Lemma prefix_length o u : String.prefix o u = true -> (String.length o <= String.length u)%nat.
Proof.
  revert u. induction o as [|a o IH]; intros u; [simpl; lia|].
  destruct u as [|b u]; [done|]. rewrite prefix_cons.
  destruct (Ascii.ascii_dec a b); [|done]. intros H%IH. simpl. lia.
Qed.

(** A prefix of [l ++ post] starts with [l] or is the start of [l]. *)
Lemma prefix_app_clash o l post :
  String.prefix o (l +:+ post) = true -> clash o l = true.
Proof.
  unfold clash. revert l. induction o as [|a o IH]; intros l H.
  - by rewrite prefix_nil_l.
  - destruct l as [|b l].
    + by rewrite prefix_nil_l, orb_true_r.
    + rewrite append_cons, prefix_cons in H. rewrite !prefix_cons.
      destruct (Ascii.ascii_dec a b) as [->|Hne]; [|done].
      destruct (Ascii.ascii_dec b b); [|done]. by apply IH.
Qed.

Section Replace.

Variables old new lit : string.
Hypothesis Hends : ends_clear old lit = true.
Hypothesis Hstarts : starts_clear old lit = true.

(** An occurrence of [old] that starts before [lit] ends before it. *)
Lemma occurrence_before o u post :
  ends_clear o lit = true ->
  String.prefix o (u +:+ lit +:+ post) = true -> String.prefix o u = true.
Proof.
  revert o. induction u as [|b u IH]; intros o Ho H.
  - rewrite append_nil in H. destruct o as [|a o]; [done|].
    cbn [ends_clear] in Ho. apply andb_true_iff in Ho as [Hc%negb_true_iff _].
    by rewrite (prefix_app_clash _ _ _ H) in Hc.
  - destruct o as [|a o]; [done|]. rewrite append_cons, prefix_cons in H.
    rewrite prefix_cons. destruct (Ascii.ascii_dec a b); [|done].
    cbn [ends_clear] in Ho. apply andb_true_iff in Ho as [_ Ho]. by apply IH.
Qed.

Lemma replace_through_lit l post :
  starts_clear old l = true ->
  Py.replace_from old new O (l +:+ post) = l +:+ Py.replace_from old new O post.
Proof.
  induction l as [|c l IH]; intros Hl; [done|].
  cbn [starts_clear] in Hl. apply andb_true_iff in Hl as [Hc%negb_true_iff Hl].
  rewrite append_cons. cbn [Py.replace_from].
  destruct (String.prefix old (String c (l +:+ post))) eqn:Hp.
  - rewrite <- append_cons in Hp. by rewrite (prefix_app_clash _ _ _ Hp) in Hc.
  - by rewrite (IH Hl), append_cons.
Qed.

(** Replacing [old] around an occurrence of [lit] replaces it before and
    after, and leaves the occurrence where it is. *)
Lemma replace_around_lit pre post skip :
  (skip <= String.length pre)%nat ->
  Py.replace_from old new skip (pre +:+ lit +:+ post)
  = Py.replace_from old new skip pre +:+ lit +:+ Py.replace_from old new O post.
Proof.
  revert skip. induction pre as [|c pre IH]; intros skip Hskip.
  - assert (skip = O) as -> by (simpl in Hskip; lia).
    rewrite append_nil. by apply replace_through_lit.
  - rewrite append_cons. cbn [Py.replace_from]. destruct skip as [|k].
    + destruct (String.prefix old (String c (pre +:+ lit +:+ post))) eqn:Hp.
      * rewrite <- append_cons in Hp.
        pose proof (occurrence_before _ _ _ Hends Hp) as Hin. rewrite Hin.
        apply prefix_length in Hin. rewrite IH by (simpl in Hin; lia).
        by rewrite append_assoc.
      * destruct (String.prefix old (String c pre)) eqn:Hin.
        { rewrite <- append_cons in Hp. by rewrite (prefix_app_l _ _ _ Hin) in Hp. }
        by rewrite IH, append_cons by lia.
    + apply IH. simpl in Hskip. lia.
Qed.

Lemma replace_keeps_lit pre post :
  Py.replace (pre +:+ lit +:+ post) old new
  = Py.replace pre old new +:+ lit +:+ Py.replace post old new.
Proof. unfold Py.replace. apply replace_around_lit. lia. Qed.

End Replace.

Lemma stamp_vcs_fields info data :
  stamp_vcs info data
  = stamp_field info "BRANCH" lit_branch ("BRANCH : " +:+ dquote) (dquote +:+ ",")
      (stamp_field info "LOCAL_MODIFICATIONS" lit_local_modifications
         "LOCAL_MODIFICATIONS : " ","
         (stamp_field info "REVISION" lit_revision "REVISION : " "," data)).
Proof.
  unfold stamp_vcs, stamp_field.
  destruct (not_empty (default EmptyString (dict_get "REVISION" info)));
    destruct (not_empty (default EmptyString (dict_get "LOCAL_MODIFICATIONS" info)));
    destruct (not_empty (default EmptyString (dict_get "BRANCH" info)));
    try reflexivity; by rewrite !append_assoc.
Qed.

Lemma stamp_field_absent info key old before after data :
  absent info key -> stamp_field info key old before after data = data.
Proof. unfold absent, stamp_field. by intros ->. Qed.

Lemma stamp_field_keeps info key old before after lit pre post :
  ends_clear old lit = true -> starts_clear old lit = true ->
  stamp_field info key old before after (pre +:+ lit +:+ post)
  = stamp_field info key old before after pre +:+ lit
    +:+ stamp_field info key old before after post.
Proof.
  intros He Hs. unfold stamp_field.
  destruct (not_empty (default EmptyString (dict_get key info))); [|done].
  by apply replace_keeps_lit.
Qed.

(** ** A literal through the downleveling *)

Lemma match_atoms_alphabet l s r :
  Re.match_atoms l s = Some r ->
  exists m, s = m +:+ r /\ all_chars (in_atoms l) m = true.
Proof.
  revert s r. induction l as [|[k q] rest IH]; intros s r.
  - cbn [Re.match_atoms]. intros [= ->]. by exists EmptyString.
  - assert (Hnext : forall s r, Re.match_atoms rest s = Some r ->
      exists m, s = m +:+ r /\ all_chars (in_atoms ((k, q) :: rest)) m = true).
    { intros s0 r0 H0. destruct (IH _ _ H0) as (m & -> & Hm). exists m. split; [done|].
      eapply all_chars_impl; [|exact Hm]. intros c Hc. unfold in_atoms. cbn [existsb].
      unfold in_atoms in Hc. by rewrite Hc, orb_true_r. }
    assert (Hcls : forall c, Re.in_cls k c = true -> in_atoms ((k, q) :: rest) c = true).
    { intros c Hc. unfold in_atoms. cbn [existsb fst]. by rewrite Hc. }
    set (star := fix star (s : string) : option string :=
           match s with
           | String c s' =>
               if Re.in_cls k c
               then match star s' with
                    | Some r => Some r
                    | None => Re.match_atoms rest s
                    end
               else Re.match_atoms rest s
           | EmptyString => Re.match_atoms rest s
           end).
    assert (Hstar : forall s r, star s = Some r ->
      exists m, s = m +:+ r /\ all_chars (in_atoms ((k, q) :: rest)) m = true).
    { intros s0. induction s0 as [|c s0 IHs]; intros r0; cbn [star].
      - apply Hnext.
      - destruct (Re.in_cls k c) eqn:Hc; [|apply Hnext].
        destruct (star s0) as [r1|] eqn:Hs; [|apply Hnext].
        intros [= <-]. destruct (IHs _ eq_refl) as (m & -> & Hm).
        exists (String c m). split; [done|]. cbn [all_chars]. by rewrite (Hcls c Hc). }
    cbn [Re.match_atoms]. fold star. destruct q.
    + destruct s as [|c s]; [done|]. destruct (Re.in_cls k c) eqn:Hc; [|done].
      intros H. destruct (Hnext _ _ H) as (m & -> & Hm).
      exists (String c m). split; [done|]. cbn [all_chars]. by rewrite (Hcls c Hc).
    + apply Hstar.
    + destruct s as [|c s]; [done|]. destruct (Re.in_cls k c) eqn:Hc; [|done].
      intros H. destruct (Hstar _ _ H) as (m & -> & Hm).
      exists (String c m). split; [done|]. cbn [all_chars]. by rewrite (Hcls c Hc).
Qed.

Lemma length_append s1 s2 :
  String.length (s1 +:+ s2) = (String.length s1 + String.length s2)%nat.
Proof. induction s1 as [|c s1 IH]; [done|]. rewrite append_cons. simpl. by rewrite IH. Qed.

Lemma drop_append m r : Path.drop (String.length m) (m +:+ r) = r.
Proof. induction m as [|c m IH]; [by destruct r|]. rewrite append_cons. simpl. apply IH. Qed.

(** After [^] has had its chance nothing matches any more. *)
Lemma sub_from_anchored p repl k s :
  Re.anchored p = true -> Re.sub_from p repl false k s = Path.drop k s.
Proof.
  intros Hp. revert k. induction s as [|c s IH]; intros k; [by destruct k|].
  cbn [Re.sub_from]. destruct k as [|k]; [|apply IH].
  rewrite Hp. cbn [negb orb]. by rewrite IH.
Qed.

(** An anchored substitution replaces a matched start of the line. *)
Lemma sub_anchored p repl s :
  Re.anchored p = true ->
  Re.sub p repl s = s \/
  exists m r, s = m +:+ r /\ all_chars (in_atoms (Re.atoms p)) m = true
              /\ Re.sub p repl s = repl +:+ r.
Proof.
  intros Hp. unfold Re.sub. destruct s as [|c s]; [by left|].
  cbn [Re.sub_from]. rewrite Hp. cbn [negb orb].
  destruct (Re.match_atoms (Re.atoms p) (String c s)) as [r|] eqn:Hm.
  - destruct (match_atoms_alphabet _ _ _ Hm) as (m & Hs & Halpha).
    destruct (String.length (String c s) - String.length r)%nat as [|k] eqn:Hlen.
    + left. by rewrite sub_from_anchored.
    + right. exists m, r. split; [done|]. split; [done|].
      rewrite sub_from_anchored by done. f_equal.
      rewrite Hs, length_append in Hlen.
      destruct m as [|c' m]; [simpl in Hlen; lia|].
      rewrite append_cons in Hs. injection Hs as -> ->.
      assert (k = String.length m) as -> by (simpl in Hlen; lia).
      apply drop_append.
  - left. by rewrite sub_from_anchored.
Qed.

(** A matched start made of characters that [c0] is not ends before [c0]. *)
Lemma matched_before (A : ascii -> bool) m r x c0 l :
  m +:+ r = x +:+ String c0 l -> all_chars A m = true -> A c0 = false ->
  exists x2, x = m +:+ x2 /\ r = x2 +:+ String c0 l.
Proof.
  revert x. induction m as [|a m IH]; intros x Heq Hm Hc0.
  - exists x. by rewrite append_nil in Heq.
  - cbn [all_chars] in Hm. apply andb_true_iff in Hm as [Ha Hm].
    destruct x as [|b x].
    + rewrite append_nil, append_cons in Heq. injection Heq as -> _. congruence.
    + rewrite !append_cons in Heq. injection Heq as -> Heq.
      destruct (IH x Heq Hm Hc0) as (x2 & -> & ->). by exists x2.
Qed.

Lemma sub_keeps_lit p repl x c0 l y :
  Re.anchored p = true -> in_atoms (Re.atoms p) c0 = false ->
  exists x', Re.sub p repl (x +:+ String c0 l +:+ y) = x' +:+ String c0 l +:+ y.
Proof.
  intros Hp Hc0.
  destruct (sub_anchored p repl (x +:+ String c0 l +:+ y) Hp) as [->|(m & r & Hs & Hm & ->)].
  - by exists x.
  - change (String c0 l +:+ y) with (String c0 (l +:+ y)) in Hs. symmetry in Hs.
    destruct (matched_before _ _ _ _ _ _ Hs Hm Hc0) as (x2 & -> & ->).
    exists (repl +:+ x2). by rewrite append_assoc.
Qed.

(** The line a literal without line ends is on. *)
Lemma splitlines_starting_with l b :
  no_linebreak l = true -> l <> EmptyString ->
  exists y rest, Py.splitlines (l +:+ b) = (l +:+ y) :: rest.
Proof.
  induction l as [|c l IH]; intros Hl Hne; [done|].
  unfold no_linebreak in Hl. cbn [all_chars] in Hl.
  apply andb_true_iff in Hl as [Hc%negb_true_iff Hl].
  rewrite append_cons. cbn [Py.splitlines]. rewrite Hc.
  destruct l as [|c2 l].
  - rewrite append_nil. destruct (Py.splitlines b) as [|h t].
    + by exists EmptyString, [].
    + by exists h, t.
  - destruct (IH Hl ltac:(done)) as (y & rest & ->). by exists y, rest.
Qed.

Lemma splitlines_around_lit a l b :
  no_linebreak l = true -> l <> EmptyString ->
  exists L1 x y L2, Py.splitlines (a +:+ l +:+ b) = L1 ++ (x +:+ l +:+ y) :: L2.
Proof.
  intros Hl Hne. induction a as [|c a (L1 & x & y & L2 & IH)].
  - rewrite append_nil. destruct (splitlines_starting_with l b Hl Hne) as (y & rest & ->).
    by exists [], EmptyString, y, rest.
  - rewrite append_cons. cbn [Py.splitlines]. rewrite IH.
    destruct (Py.is_linebreak c).
    + destruct (Ascii.eqb c Py.CR && Py.starts_with_chr Py.LF (a +:+ l +:+ b)).
      * by exists L1, x, y, L2.
      * by exists (EmptyString :: L1), x, y, L2.
    + destruct L1 as [|h t].
      * by exists [], (String c x), y, L2.
      * by exists (String c h :: t), x, y, L2.
Qed.

Lemma join_around (L1 L2 : list string) z :
  exists P Q, Py.join newline (L1 ++ z :: L2) = P +:+ z +:+ Q.
Proof.
  assert (Htail : exists Q, Py.join newline (z :: L2) = z +:+ Q).
  { destruct L2 as [|h t]; cbn [Py.join].
    - exists EmptyString. clear. induction z as [|c z IH]; [done|]. by rewrite append_cons, <- IH.
    - by eexists. }
  induction L1 as [|h t (P & Q & IH)].
  - cbn [app]. destruct Htail as [Q ->]. by exists EmptyString, Q.
  - change ((h :: t) ++ z :: L2) with (h :: (t ++ z :: L2)).
    assert (Hcons : Py.join newline (h :: (t ++ z :: L2))
                    = h +:+ newline +:+ Py.join newline (t ++ z :: L2)).
    { by destruct t. }
    rewrite Hcons, IH. exists (h +:+ newline +:+ P), Q. by rewrite !append_assoc.
Qed.

(** One pass keeps the literal. *)
Lemma downlevel_pass_keeps_lit rule a c0 l b :
  no_linebreak (String c0 l) = true ->
  match Re.compile (fst rule) with
  | Some p => Re.anchored p && negb (in_atoms (Re.atoms p) c0) && no_linebreak (snd rule)
  | None => true
  end = true ->
  exists a' b', downlevel_pass (a +:+ String c0 l +:+ b) rule = a' +:+ String c0 l +:+ b'.
Proof.
  intros Hl Hrule. unfold downlevel_pass.
  destruct (Re.compile (fst rule)) as [p|]; [|by exists a, b].
  apply andb_true_iff in Hrule as [[Hp Hc0%negb_true_iff]%andb_true_iff _].
  destruct (splitlines_around_lit a (String c0 l) b Hl ltac:(done)) as (L1 & x & y & L2 & ->).
  rewrite map_app. cbn [map].
  destruct (sub_keeps_lit p (snd rule) x c0 l y Hp Hc0) as [x' ->].
  destruct (join_around (map (Re.sub p (snd rule)) L1) (map (Re.sub p (snd rule)) L2)
              (x' +:+ String c0 l +:+ y)) as (P & Q & ->).
  exists (P +:+ x'), (y +:+ Q). by rewrite !append_assoc.
Qed.

(** The downleveling keeps a literal that is out of its reach: it comes
    out between what the rules made of the text before and after it. *)
Lemma downlevel_keeps_lit lit a b :
  out_of_reach lit = true ->
  exists a' b', downlevel (a +:+ lit +:+ b) = a' +:+ lit +:+ b'.
Proof.
  unfold out_of_reach. intros [Hl Hrules]%andb_true_iff.
  destruct lit as [|c0 l]; [done|]. unfold downlevel.
  revert a b. induction downlevel_rules as [|rule rules IH]; intros a b.
  - by exists a, b.
  - cbn [forallb] in Hrules. apply andb_true_iff in Hrules as [Hrule Hrules].
    cbn [fold_left].
    destruct (downlevel_pass_keeps_lit rule a c0 l b Hl Hrule) as (a1 & b1 & ->).
    by apply IH.
Qed.

(** Stamping keeps the default initialiser of a field it has no value
    for, and stamps the other fields before and after it. *)
Lemma stamp_vcs_keeps info key lit pre post :
  In (key, lit) default_literals -> absent info key ->
  stamp_vcs info (pre +:+ lit +:+ post)
  = stamp_vcs info pre +:+ lit +:+ stamp_vcs info post.
Proof.
  intros Hin Habs. rewrite !stamp_vcs_fields.
  destruct Hin as [[= <- <-]|[[= <- <-]|[[= <- <-]|[]]]].
  - rewrite !(stamp_field_absent info "REVISION") by done.
    rewrite (stamp_field_keeps info "LOCAL_MODIFICATIONS") by (by vm_compute).
    by rewrite (stamp_field_keeps info "BRANCH") by (by vm_compute).
  - rewrite (stamp_field_keeps info "REVISION") by (by vm_compute).
    rewrite !(stamp_field_absent info "LOCAL_MODIFICATIONS") by done.
    by rewrite (stamp_field_keeps info "BRANCH") by (by vm_compute).
  - rewrite (stamp_field_keeps info "REVISION") by (by vm_compute).
    rewrite (stamp_field_keeps info "LOCAL_MODIFICATIONS") by (by vm_compute).
    by rewrite !(stamp_field_absent info "BRANCH") by done.
Qed.

Lemma default_literals_out_of_reach key lit :
  In (key, lit) default_literals -> out_of_reach lit = true.
Proof. intros [[= <- <-]|[[= <- <-]|[[= <- <-]|[]]]]; by vm_compute. Qed.

(** C8: version stamping leaves alone what it has no value for.  With an
    empty mapping the stamping changes nothing.  For a field that is
    absent from the mapping (or there with an empty value), every
    occurrence of its default initialiser stays where it is, byte for
    byte, while the other fields are stamped before and after it; and it
    is still there, unmodified, in what the whole transformation
    (stamping, then downleveling) makes of the file. *)
Theorem C8_absent_field_keeps_literal (info : dict string) :
  (info = [] -> forall odata, stamp_vcs info odata = odata) /\
  (forall key lit,
     In (key, lit) default_literals -> absent info key ->
     forall pre post,
       stamp_vcs info (pre +:+ lit +:+ post)
       = stamp_vcs info pre +:+ lit +:+ stamp_vcs info post) /\
  (forall key lit,
     In (key, lit) default_literals -> absent info key ->
     forall bname pre post f,
       exists pre' post' t,
         transform info bname (pre +:+ lit +:+ post) f
         = (Ok (pre' +:+ lit +:+ post'), f, t)).
Proof.
  split_and!.
  - by intros ->.
  - intros key lit Hin Habs pre post. by apply (stamp_vcs_keeps info key).
  - intros key lit Hin Habs bname pre post f.
    pose proof (default_literals_out_of_reach key lit Hin) as Hreach.
    unfold transform.
    destruct (String.eqb bname "Utilities.js" && negb (bool_decide (info = []))).
    + rewrite (stamp_vcs_keeps info key lit pre post Hin Habs).
      destruct (downlevel_keeps_lit lit (stamp_vcs info pre) (stamp_vcs info post) Hreach)
        as (pre' & post' & Hd).
      exists pre', post', [EPrint (MAddingVcs bname)].
      cbv [bind print ret]. cbn beta iota zeta. by rewrite Hd.
    + destruct (downlevel_keeps_lit lit pre post Hreach) as (pre' & post' & Hd).
      exists pre', post', []. cbv [bind ret]. cbn beta iota zeta. by rewrite Hd.
Qed.

(** A mapping with a branch and no revision, on a file that holds both
    initialisers. *)
Lemma C8_absent_field_keeps_literal_witness :
  let info := [("BRANCH", "v4.1.x")] in
  let pre := "var Utilities = {" +:+ newline in
  let post := newline +:+ lit_branch +:+ newline +:+ "};" in
  (In ("REVISION", lit_revision) default_literals /\ absent info "REVISION") /\
  stamp_vcs info (pre +:+ lit_revision +:+ post)
  = stamp_vcs info pre +:+ lit_revision +:+ stamp_vcs info post.
Proof.
  split; [split; [by left|reflexivity]|].
  apply (proj1 (proj2 (C8_absent_field_keeps_literal [("BRANCH", "v4.1.x")]))
           "REVISION" lit_revision).
  - by left.
  - reflexivity.
Defined.
